(** * The todo-list component [App]: state, gesture handlers and view

    A shallow embedding of the React component [App] (the JSX source with
    [useState], [addTask], [deleteTask], [handleKeyPress] and the returned
    element tree), together with the properties the specification states
    about it.

    Conventions of the embedding.
    - A JavaScript string is the list of its UTF-16 code units.
    - The two [useState] cells are the two fields of [State]; a handler is a
      function from the state of the render it closes over to the state of
      the next render.  React flushes a discrete event (click, key press,
      change) before the next one is dispatched, so handlers compose
      sequentially.
    - [Date.now()] is an input of the handler that calls it: the reading of
      the wall clock, an integral number of milliseconds.
    - Identifiers are the seeds 1, 2, 3 and readings of [Date.now()], all
      integral Numbers far below 2^53, on which [!==] is integer
      disequality: they are modelled in [Z]. *)

From Stdlib Require Import List ZArith NArith Bool String Ascii Lia.
From Stdlib Require Import DecimalString.
Import ListNotations.

Set Warnings "-register-all".
Local Open Scope string_scope.
Local Open Scope list_scope.
Local Open Scope Z_scope.

(** ** JavaScript strings *)

Module JsString.

Definition code_unit := N.
Definition t := list code_unit.

(** A literal of the source, all of whose characters are ASCII. *)
Fixpoint lit (s : string) : t :=
  match s with
  | EmptyString => []
  | String c s' => N_of_ascii c :: lit s'
  end.

(** [a === b] on strings: the same sequence of code units. *)
Fixpoint eqb (a b : t) : bool :=
  match a, b with
  | [], [] => true
  | x :: a', y :: b' => N.eqb x y && eqb a' b'
  | _, _ => false
  end.

(** The code units [String.prototype.trim] strips: ECMAScript's WhiteSpace
    (TAB, VT, FF, ZWNBSP and the Space_Separator category) and
    LineTerminator (LF, CR, LS, PS). *)
Definition is_white_space (c : code_unit) : bool :=
  (N.eqb c 9 || N.eqb c 10 || N.eqb c 11 || N.eqb c 12 || N.eqb c 13
   || N.eqb c 32 || N.eqb c 160 || N.eqb c 5760
   || (N.leb 8192 c && N.leb c 8202)
   || N.eqb c 8232 || N.eqb c 8233 || N.eqb c 8239 || N.eqb c 8287
   || N.eqb c 12288 || N.eqb c 65279)%N.

Fixpoint trimStart (s : t) : t :=
  match s with
  | [] => []
  | c :: s' => if is_white_space c then trimStart s' else s
  end.

Definition trimEnd (s : t) : t := rev (trimStart (rev s)).

Definition trim (s : t) : t := trimEnd (trimStart s).

(** The empty string of the source. *)
Definition empty : t := [].

(** A string that consists only of white space (the empty one included). *)
Definition blank (s : t) : bool := forallb is_white_space s.

End JsString.

Definition jsstring : Type := JsString.t.
Notation "'js:' s" := (JsString.lit s) (at level 9, s at level 0, format "'js:' s").

(** ** State of the component *)

Record Task := mkTask { id : Z; text : jsstring }.

Record State := mkState { tasks : list Task; inputValue : jsstring }.

(** The arguments of the two [useState] calls. *)
Definition initial : State :=
  {| tasks := [ {| id := 1; text := js:"Learn React" |};
                {| id := 2; text := js:"Build a todo app" |};
                {| id := 3; text := js:"Master JavaScript" |} ];
     inputValue := JsString.empty |}.

Definition setTasks (ts : list Task) (st : State) : State :=
  {| tasks := ts; inputValue := inputValue st |}.

Definition setInputValue (v : jsstring) (st : State) : State :=
  {| tasks := tasks st; inputValue := v |}.

(** ** Handlers *)

(** [addTask], with [now] the value [Date.now()] returns in this call. *)
Definition addTask (now : Z) (st : State) : State :=
  if JsString.eqb (JsString.trim (inputValue st)) JsString.empty then st
  else
    let newTask := {| id := now; text := inputValue st |} in
    setInputValue JsString.empty (setTasks (tasks st ++ [newTask]) st).

(** The test of the filter in [deleteTask]: [task.id !== id]. *)
Definition keeps (i : Z) (task : Task) : bool := negb (Z.eqb (id task) i).

Definition deleteTask (i : Z) (st : State) : State :=
  setTasks (filter (fun task => keeps i task) (tasks st)) st.

(** [handleKeyPress], with [key] the [e.key] of the event. *)
Definition handleKeyPress (now : Z) (key : jsstring) (st : State) : State :=
  if JsString.eqb key js:"Enter" then addTask now st else st.

(** The [onChange] handler of the input, with [value] the [e.target.value]
    of the event; the specification calls it [setDraft]. *)
Definition onChange (value : jsstring) (st : State) : State :=
  setInputValue value st.

Definition ids (st : State) : list Z := map id (tasks st).
Definition texts (st : State) : list jsstring := map text (tasks st).

(** ** The rendered element tree *)

(** What a handler prop of the tree does when its event fires. *)
Inductive Handler :=
| HChange                 (* (e) => setInputValue(e.target.value) *)
| HKeyPress               (* handleKeyPress *)
| HAddTask                (* addTask *)
| HDeleteTask (i : Z).    (* () => deleteTask(task.id) *)

Inductive Prop_ :=
| PKey (k : Z)
| PType (s : string)
| PValue (v : jsstring)
| PPlaceholder (s : string)
| POnChange (h : Handler)
| POnKeyPress (h : Handler)
| POnClick (h : Handler).

Inductive VNode :=
| Elem (tag : string) (className : option string)
       (props : list Prop_) (children : list VNode)
| Text (s : jsstring)
| Num (n : Z).

Definition renderTask (task : Task) : VNode :=
  Elem "li" (Some "task-item") [PKey (id task)]
    [ Elem "span" (Some "task-text") [] [Text (text task)];
      Elem "button" (Some "delete-btn") [POnClick (HDeleteTask (id task))]
        [Text js:"Delete"] ].

(** The value [App] returns. *)
Definition render (st : State) : VNode :=
  Elem "div" (Some "todo-container") []
    [ Elem "h1" None [] [Text js:"My Todo List"];
      Elem "div" (Some "input-section") []
        [ Elem "input" (Some "task-input")
            [ PType "text"; PValue (inputValue st); POnChange HChange;
              POnKeyPress HKeyPress; PPlaceholder "Add a new task..." ] [];
          Elem "button" (Some "add-btn") [POnClick HAddTask]
            [Text js:"Add Task"] ];
      Elem "div" (Some "tasks-section") []
        [ if (Z.of_nat (List.length (tasks st)) =? 0)
          then Elem "p" (Some "empty-message") []
                 [Text js:"No tasks yet. Add one to get started!"]
          else Elem "ul" (Some "task-list") [] (map renderTask (tasks st)) ];
      Elem "div" (Some "stats") []
        [ Elem "p" None []
            [Text js:"Total tasks: "; Num (Z.of_nat (List.length (tasks st)))] ] ].

(** Derived presentation state: the two expressions over [tasks.length]
    the view is built from. *)
Definition count (st : State) : nat := List.length (tasks st).
Definition isEmpty (st : State) : bool := Z.of_nat (List.length (tasks st)) =? 0.

(** How many elements of a tree carry the class [c]. *)
Definition has_class (c : string) (className : option string) : bool :=
  match className with
  | Some c' => String.eqb c c'
  | None => false
  end.

Fixpoint count_class (c : string) (v : VNode) : nat :=
  match v with
  | Elem _ cls _ kids =>
      ((if has_class c cls then 1 else 0)
       + list_sum (map (count_class c) kids))%nat
  | Text _ | Num _ => 0%nat
  end.

(** An element of class [c] is on the page. *)
Definition shown (c : string) (v : VNode) : bool :=
  (0 <? count_class c v)%nat.

(** ** Gestures and runs *)

(** A gesture of the user, with the reading of the clock at the time it is
    handled (only [addTask] looks at it). *)
Inductive Gesture :=
| Change (value : jsstring)
| ClickAdd
| KeyPress (key : jsstring)
| ClickDelete (i : Z).

Definition step (now : Z) (g : Gesture) (st : State) : State :=
  match g with
  | Change value => onChange value st
  | ClickAdd => addTask now st
  | KeyPress key => handleKeyPress now key st
  | ClickDelete i => deleteTask i st
  end.

(** A run: the gestures in the order they are handled, each with the clock
    reading of its handler. *)
Fixpoint run (tr : list (Z * Gesture)) (st : State) : State :=
  match tr with
  | [] => st
  | (now, g) :: tr' => run tr' (step now g st)
  end.

(** The states the component can be in. *)
Inductive reachable : State -> Prop :=
| reach_initial : reachable initial
| reach_step now g st : reachable st -> reachable (step now g st).

(** The clock of a run never goes back. *)
Fixpoint clock_monotone (tr : list (Z * Gesture)) : bool :=
  match tr with
  | (t1, _) :: (((t2, _) :: _) as tr') => (t1 <=? t2) && clock_monotone tr'
  | _ => true
  end.

(** Every reading of the clock in a run is later than the one before, and
    the first is later than [lo]. *)
Fixpoint clock_fresh (lo : Z) (tr : list (Z * Gesture)) : bool :=
  match tr with
  | [] => true
  | (t, _) :: tr' => (lo <? t) && clock_fresh t tr'
  end.

(** Two tasks added while the clock reads the same millisecond. *)
Definition same_tick : list (Z * Gesture) :=
  [ (1700000000000, Change js:"a"); (1700000000000, ClickAdd);
    (1700000000000, Change js:"b"); (1700000000000, ClickAdd) ].

(** A task whose text is more than white space. *)
Definition not_blank (task : Task) : Prop := JsString.blank (text task) = false.

(** ** Events of the element tree *)

Inductive Event :=
| EvClick
| EvChange (value : jsstring)      (* e.target.value *)
| EvKeyPress (key : jsstring).     (* e.key *)

(** What runs when the event [e] reaches a prop that holds [h]; [addTask]
    and the delete closure do not look at their event. *)
Definition handle (h : Handler) (now : Z) (e : Event) (st : State) : State :=
  match h, e with
  | HChange, EvChange value => onChange value st
  | HKeyPress, EvKeyPress key => handleKeyPress now key st
  | HAddTask, _ => addTask now st
  | HDeleteTask i, _ => deleteTask i st
  | _, _ => st
  end.

Fixpoint prop_onClick (ps : list Prop_) : option Handler :=
  match ps with
  | [] => None
  | POnClick h :: _ => Some h
  | _ :: ps' => prop_onClick ps'
  end.

Fixpoint prop_onChange (ps : list Prop_) : option Handler :=
  match ps with
  | [] => None
  | POnChange h :: _ => Some h
  | _ :: ps' => prop_onChange ps'
  end.


Fixpoint prop_value (ps : list Prop_) : option jsstring :=
  match ps with
  | [] => None
  | PValue v :: _ => Some v
  | _ :: ps' => prop_value ps'
  end.


Definition delete_button (task : Task) : VNode :=
  Elem "button" (Some "delete-btn") [POnClick (HDeleteTask (id task))]
    [Text js:"Delete"].

(** A number child as the page shows it: its decimal digits. *)
Definition decimal (n : Z) : jsstring :=
  js:(NilZero.string_of_int (Z.to_int n)).

(** [node.textContent]: the text of the descendants, in document order. *)
Fixpoint text_content (v : VNode) : jsstring :=
  match v with
  | Elem _ _ _ kids => List.concat (map text_content kids)
  | Text s => s
  | Num n => decimal n
  end.

(** ** The locator interface the page object is written against *)

Module Playwright.

(** The selectors of the test data are a class ([.name]) or a tag. *)
Inductive Selector := ByClass (c : string) | ByTag (tag : string).

Definition css (s : string) : Selector :=
  match s with
  | String "." c => ByClass c
  | _ => ByTag s
  end.

Definition matches (sel : Selector) (v : VNode) : bool :=
  match v, sel with
  | Elem _ cls _ _, ByClass c => has_class c cls
  | Elem tag _ _ _, ByTag t => String.eqb t tag
  | _, _ => false
  end.

(** The elements a selector matches, in document order. *)
Fixpoint resolve (sel : Selector) (v : VNode) : list VNode :=
  match v with
  | Elem _ _ _ kids =>
      (if matches sel v then [v] else []) ++ flat_map (resolve sel) kids
  | Text _ | Num _ => []
  end.

Inductive Pick := All | Nth (index : nat) | Last.

Record Locator := { selector : Selector; pick : Pick }.

Definition locator (s : string) : Locator :=
  {| selector := css s; pick := All |}.
Definition nth (l : Locator) (index : nat) : Locator :=
  {| selector := selector l; pick := Nth index |}.
Definition first (l : Locator) : Locator := nth l 0.
Definition last (l : Locator) : Locator :=
  {| selector := selector l; pick := Last |}.

Definition elements (l : Locator) (dom : VNode) : list VNode :=
  let all := resolve (selector l) dom in
  match pick l with
  | All => all
  | Nth index => match nth_error all index with Some v => [v] | None => [] end
  | Last => match rev all with v :: _ => [v] | [] => [] end
  end.

(** How a call on a locator fails: no element shows up before the time
    limit, several elements match where one is required, or the element is
    not an input. *)
Inductive Error := Timeout | StrictModeViolation | NotAnInput.

Inductive result (A : Type) :=
| Ok (a : A)
| Err (e : Error).
Arguments Ok {A} a.
Arguments Err {A} e.

Definition bind {A B : Type} (r : result A) (k : A -> result B) : result B :=
  match r with
  | Ok a => k a
  | Err e => Err e
  end.

(** The one element a call acts on. *)
Definition one (l : Locator) (dom : VNode) : result VNode :=
  match elements l dom with
  | [] => Err Timeout
  | [v] => Ok v
  | _ :: _ :: _ => Err StrictModeViolation
  end.

Definition count (l : Locator) (dom : VNode) : nat :=
  List.length (elements l dom).

Definition textContent (l : Locator) (dom : VNode) : result jsstring :=
  bind (one l dom) (fun v => Ok (text_content v)).

Definition inputValue (l : Locator) (dom : VNode) : result jsstring :=
  bind (one l dom) (fun v =>
    match v with
    | Elem "input" _ props _ =>
        Ok (match prop_value props with Some s => s | None => JsString.empty end)
    | _ => Err NotAnInput
    end).

(** The calls that act on the page: the page is the component in state
    [st], showing [render st]; [now] is what the clock reads while the
    event is handled. *)
Definition click (l : Locator) (now : Z) (st : State) : result State :=
  bind (one l (render st)) (fun v =>
    match v with
    | Elem _ _ props _ =>
        Ok (match prop_onClick props with
            | Some h => handle h now EvClick st
            | None => st
            end)
    | _ => Ok st
    end).

Definition fill (l : Locator) (value : jsstring) (now : Z) (st : State)
  : result State :=
  bind (one l (render st)) (fun v =>
    match v with
    | Elem "input" _ props _ =>
        Ok (match prop_onChange props with
            | Some h => handle h now (EvChange value) st
            | None => st
            end)
    | _ => Err NotAnInput
    end).


End Playwright.

(** ** The page object [TodoPage] *)

Module TodoPage.
Import Playwright.

(** The locators of the constructor, from [testData.uiElements]. *)
Definition container := locator ".todo-container".
Definition heading := locator "h1".
Definition taskInput := locator ".task-input".
Definition addButton := locator ".add-btn".
Definition taskList := locator ".task-list".
Definition taskText := locator ".task-text".
Definition deleteButton := locator ".delete-btn".
Definition stats := locator ".stats".
Definition emptyMessage := locator ".empty-message".

Definition getHeadingText (st : State) : result jsstring :=
  textContent heading (render st).





Definition getStatsText (st : State) : result jsstring :=
  textContent stats (render st).


Definition getAddButtonText (st : State) : result jsstring :=
  textContent addButton (render st).


Definition getDeleteButtonTextByIndex (index : nat) (st : State)
  : result jsstring :=
  textContent (nth deleteButton index) (render st).

Definition getEmptyMessageText (st : State) : result jsstring :=
  textContent emptyMessage (render st).

Definition fillTaskInput (value : jsstring) (now : Z) (st : State)
  : result State :=
  fill taskInput value now st.

Definition clickAddButton (now : Z) (st : State) : result State :=
  click addButton now st.

Definition addTaskByButton (taskText : jsstring) (now : Z) (st : State)
  : result State :=
  bind (fillTaskInput taskText now st) (click addButton now).




Definition deleteLastTask (now : Z) (st : State) : result State :=
  click (last deleteButton) now st.


End TodoPage.

(** * Properties *)

(** ** Strings *)

Module JsStringFacts.
Import JsString.

Lemma eqb_eq (a b : t) : eqb a b = true <-> a = b.
Proof.
  revert b; induction a as [|x a IH]; intros [|y b]; simpl;
    try (split; [discriminate | congruence]); [tauto|].
  rewrite andb_true_iff, N.eqb_eq, IH.
  split; [intros [-> ->]; reflexivity | intros [= -> ->]; auto].
Qed.

Lemma eqb_neq (a b : t) : eqb a b = false <-> a <> b.
Proof.
  rewrite <- eqb_eq. destruct (eqb a b); split; congruence.
Qed.

Lemma blank_trimStart (s : t) : blank (trimStart s) = blank s.
Proof.
  unfold blank; induction s as [|c s IH]; simpl; [reflexivity|].
  destruct (is_white_space c) eqn:E; simpl; rewrite ?E; auto.
Qed.

Lemma trimStart_nil (s : t) : trimStart s = [] <-> blank s = true.
Proof.
  unfold blank; induction s as [|c s IH]; simpl; [tauto|].
  destruct (is_white_space c); simpl; [exact IH|].
  split; discriminate.
Qed.

Lemma blank_rev (s : t) : blank (rev s) = blank s.
Proof.
  unfold blank; induction s as [|c s IH]; simpl; [reflexivity|].
  rewrite forallb_app, IH; simpl.
  rewrite andb_true_r; apply andb_comm.
Qed.

Lemma trimEnd_nil (s : t) : trimEnd s = [] <-> blank s = true.
Proof.
  unfold trimEnd. rewrite <- blank_rev, <- trimStart_nil.
  split; intros H.
  - apply (f_equal (@rev _)) in H. rewrite rev_involutive in H. exact H.
  - rewrite H. reflexivity.
Qed.

(** [s.trim() === ''] exactly when [s] is all white space. *)
Lemma trim_empty (s : t) : trim s = empty <-> blank s = true.
Proof.
  unfold trim, empty. rewrite trimEnd_nil, blank_trimStart. tauto.
Qed.

(** Trimming keeps the characters that are not white space. *)
Lemma trim_filter (s : t) :
  filter (fun c => negb (is_white_space c)) (trim s)
  = filter (fun c => negb (is_white_space c)) s.
Proof.
  assert (H : forall u, filter (fun c => negb (is_white_space c)) (trimStart u)
                        = filter (fun c => negb (is_white_space c)) u).
  { induction u as [|c u IH]; simpl; [reflexivity|].
    destruct (is_white_space c) eqn:E; simpl; rewrite ?E; simpl; auto. }
  unfold trim, trimEnd.
  rewrite filter_rev, H, <- filter_rev, rev_involutive. apply H.
Qed.

End JsStringFacts.

Example trim_padded :
  JsString.trim js:"   Test task   " = js:"Test task".
Proof. reflexivity. Qed.

Example trim_spaces : JsString.trim js:"   " = JsString.empty.
Proof. reflexivity. Qed.

Example trim_inner :
  JsString.trim (9%N :: js:" a b " ++ [160%N; 10%N]) = js:"a b".
Proof. reflexivity. Qed.

(** ** [addTask] *)

Section AddTask.
Variable now : Z.
Variable ts : list Task.
Variable s : jsstring.

Let st := {| tasks := ts; inputValue := s |}.

Lemma addTask_accepts :
  JsString.trim s <> JsString.empty ->
  addTask now st
  = {| tasks := ts ++ [ {| id := now; text := s |} ];
       inputValue := JsString.empty |}.
Proof.
  intros H. apply JsStringFacts.eqb_neq in H.
  unfold addTask; simpl. rewrite H. reflexivity.
Qed.

Lemma addTask_rejects :
  JsString.trim s = JsString.empty -> addTask now st = st.
Proof.
  intros H. unfold addTask; simpl. rewrite H. reflexivity.
Qed.

End AddTask.

(** C1. With a draft [s] whose trimmed form is not empty, [addTask] puts
    exactly one new task at the end of the collection, with text [s] as it
    was typed; the tasks that were there stay, in their order; the size
    grows by one; the draft becomes the empty string. *)
Theorem addTask_appends_draft (now : Z) (ts : list Task) (s : jsstring)
    (Hs : JsString.trim s <> JsString.empty) :
  let st' := addTask now {| tasks := ts; inputValue := s |} in
  (exists task, tasks st' = ts ++ [task] /\ text task = s)
  /\ firstn (List.length ts) (tasks st') = ts
  /\ map text (skipn (List.length ts) (tasks st')) = [s]
  /\ List.length (tasks st') = S (List.length ts)
  /\ inputValue st' = JsString.empty.
Proof.
  cbv zeta. rewrite addTask_accepts by exact Hs. simpl.
  repeat split.
  - eexists; split; reflexivity.
  - rewrite firstn_app, Nat.sub_diag, firstn_all. simpl. apply app_nil_r.
  - rewrite skipn_app, Nat.sub_diag, skipn_all. reflexivity.
  - rewrite length_app. simpl. lia.
Qed.

Lemma addTask_appends_draft_witness :
  let st' := addTask 1700000000000
               {| tasks := tasks initial; inputValue := js:"  Test task " |} in
  (exists task, tasks st' = tasks initial ++ [task]
                /\ text task = js:"  Test task ")
  /\ firstn 3 (tasks st') = tasks initial
  /\ map text (skipn 3 (tasks st')) = [js:"  Test task "]
  /\ List.length (tasks st') = 4%nat
  /\ inputValue st' = JsString.empty.
Proof.
  apply (addTask_appends_draft 1700000000000 (tasks initial) js:"  Test task ").
  vm_compute. discriminate.
Defined.

(** C3. With a draft that is all white space (or empty), [addTask] changes
    nothing: the collection and the draft are the ones it was given.  The
    handler is a total function of the state: there is no path on which it
    throws. *)
Theorem addTask_blank_noop (now : Z) (ts : list Task) (s : jsstring)
    (Hs : JsString.blank s = true) :
  let st := {| tasks := ts; inputValue := s |} in
  addTask now st = st
  /\ tasks (addTask now st) = ts
  /\ List.length (tasks (addTask now st)) = List.length ts
  /\ inputValue (addTask now st) = s.
Proof.
  cbv zeta. apply JsStringFacts.trim_empty in Hs.
  rewrite addTask_rejects by exact Hs. simpl. auto.
Qed.

Lemma addTask_blank_noop_witness :
  let st := {| tasks := tasks initial; inputValue := js:"   " |} in
  addTask 1700000000000 st = st
  /\ tasks (addTask 1700000000000 st) = tasks initial
  /\ List.length (tasks (addTask 1700000000000 st)) = 3%nat
  /\ inputValue (addTask 1700000000000 st) = js:"   ".
Proof.
  apply (addTask_blank_noop 1700000000000 (tasks initial) js:"   ").
  reflexivity.
Defined.

(** ** The draft and the keyboard *)

(** C7. The change handler stores the text it is given as the draft, as it
    is, and keeps the collection. *)
Theorem onChange_sets_draft (value : jsstring) (st : State) :
  inputValue (onChange value st) = value
  /\ tasks (onChange value st) = tasks st.
Proof. split; reflexivity. Qed.

(** C8. The key handler runs [addTask] on the current state when the key is
    Enter; on any other key it leaves the collection and the draft as they
    are. *)
Theorem handleKeyPress_enter_only (now : Z) (key : jsstring) (st : State) :
  (key = js:"Enter" -> handleKeyPress now key st = addTask now st)
  /\ (key <> js:"Enter" ->
      handleKeyPress now key st = st
      /\ tasks (handleKeyPress now key st) = tasks st
      /\ inputValue (handleKeyPress now key st) = inputValue st).
Proof.
  unfold handleKeyPress. split; intros H.
  - apply JsStringFacts.eqb_eq in H. rewrite H. reflexivity.
  - apply JsStringFacts.eqb_neq in H. rewrite H. auto.
Qed.

Lemma handleKeyPress_enter_only_witness :
  let st := {| tasks := tasks initial; inputValue := js:"Test task" |} in
  handleKeyPress 1700000000000 js:"Enter" st = addTask 1700000000000 st
  /\ handleKeyPress 1700000000000 js:"a" st = st.
Proof.
  split.
  - apply (handleKeyPress_enter_only 1700000000000 js:"Enter"). reflexivity.
  - apply (handleKeyPress_enter_only 1700000000000 js:"a"). discriminate.
Defined.

(** ** [deleteTask] *)

Lemma deleteTask_tasks (i : Z) (st : State) :
  tasks (deleteTask i st) = filter (keeps i) (tasks st).
Proof. reflexivity. Qed.

Lemma keeps_true (i : Z) (task : Task) : keeps i task = true <-> id task <> i.
Proof.
  unfold keeps. rewrite negb_true_iff, Z.eqb_neq. tauto.
Qed.

Lemma filter_keeps_absent (i : Z) (ts : list Task) :
  ~ In i (map id ts) -> filter (keeps i) ts = ts.
Proof.
  induction ts as [|a ts IH]; simpl; intros H; [reflexivity|].
  destruct (keeps i a) eqn:E.
  - f_equal. apply IH. tauto.
  - exfalso. apply H. left.
    unfold keeps in E. apply negb_false_iff, Z.eqb_eq in E. exact E.
Qed.

Lemma filter_keeps_unique (i : Z) (ts : list Task) :
  NoDup (map id ts) -> In i (map id ts) ->
  exists before task after,
    ts = before ++ task :: after /\ id task = i
    /\ filter (keeps i) ts = before ++ after.
Proof.
  induction ts as [|a ts IH]; simpl; intros Hnd Hin; [contradiction|].
  apply NoDup_cons_iff in Hnd. destruct Hnd as [Ha Hnd].
  destruct (Z.eq_dec (id a) i) as [E|E].
  - exists [], a, ts. repeat split; [exact E|].
    replace (keeps i a) with false
      by (symmetry; unfold keeps; apply negb_false_iff, Z.eqb_eq; exact E).
    simpl. apply filter_keeps_absent. rewrite <- E. exact Ha.
  - destruct Hin as [Hin|Hin]; [contradiction|].
    destruct (IH Hnd Hin) as (l1 & t & l2 & -> & Ht & Hf).
    exists (a :: l1), t, l2. repeat split; [exact Ht|].
    apply keeps_true in E. rewrite E, Hf. reflexivity.
Qed.

Lemma reachable_run (tr : list (Z * Gesture)) (st : State) :
  reachable st -> reachable (run tr st).
Proof.
  revert st; induction tr as [|[now g] tr IH]; simpl; intros st H;
    [exact H | apply IH, reach_step, H].
Qed.

(** C2, as stated, fails: in the state the run [same_tick] leads to, the
    identifier 1700000000000 is in the collection and deleting it takes the
    size from 5 to 3. *)
Lemma deleteTask_size_counterexample :
  let st := run same_tick initial in
  reachable st
  /\ In 1700000000000 (ids st)
  /\ List.length (tasks st) = 5%nat
  /\ List.length (tasks (deleteTask 1700000000000 st)) = 3%nat
  /\ ~ (forall (i : Z) (st0 : State), In i (ids st0) ->
        S (List.length (tasks (deleteTask i st0))) = List.length (tasks st0)).
Proof.
  cbv zeta. split; [apply reachable_run, reach_initial|].
  split; [vm_compute; tauto|].
  split; [reflexivity|]. split; [reflexivity|].
  intros H.
  specialize (H 1700000000000 (run same_tick initial)).
  assert (Hin : In 1700000000000 (ids (run same_tick initial)))
    by (vm_compute; tauto).
  specialize (H Hin). vm_compute in H. discriminate H.
Qed.

(** C2, amended. In a state whose identifiers are pairwise distinct, for an
    identifier [i] of the collection, [deleteTask i] takes out one task, the
    one with identifier [i]: the tasks before it and after it stay, in their
    order, and the size goes down by one. *)
Theorem deleteTask_removes_target (i : Z) (st : State)
    (Hdistinct : NoDup (ids st)) (Hpresent : In i (ids st)) :
  exists before task after,
    tasks st = before ++ task :: after
    /\ id task = i
    /\ tasks (deleteTask i st) = before ++ after
    /\ S (List.length (tasks (deleteTask i st))) = List.length (tasks st).
Proof.
  destruct (filter_keeps_unique i (tasks st) Hdistinct Hpresent)
    as (l1 & t & l2 & E & Ht & Hf).
  exists l1, t, l2. rewrite deleteTask_tasks, Hf, E.
  repeat split; [exact Ht|].
  rewrite !length_app. simpl. lia.
Qed.

Lemma deleteTask_removes_target_witness :
  exists before task after,
    tasks initial = before ++ task :: after
    /\ id task = 2
    /\ tasks (deleteTask 2 initial) = before ++ after
    /\ S (List.length (tasks (deleteTask 2 initial)))
       = List.length (tasks initial).
Proof.
  apply (deleteTask_removes_target 2 initial).
  - repeat constructor; simpl; intuition lia.
  - simpl. tauto.
Defined.

(** C6. For an identifier that is not in the collection [deleteTask] gives
    back the state it was given, and deleting the same identifier a second
    time changes nothing more. *)
Theorem deleteTask_absent_idempotent (i : Z) (st : State) :
  (~ In i (ids st) -> deleteTask i st = st)
  /\ deleteTask i (deleteTask i st) = deleteTask i st.
Proof.
  destruct st as [ts v]. unfold deleteTask, setTasks, ids; simpl. split.
  - intros H. f_equal. apply filter_keeps_absent, H.
  - f_equal. fold (keeps i).
    induction ts as [|a ts IH]; simpl; [reflexivity|].
    destruct (keeps i a) eqn:E; simpl; rewrite ?E, ?IH; reflexivity.
Qed.

Lemma deleteTask_absent_idempotent_witness :
  deleteTask 7 initial = initial
  /\ deleteTask 2 (deleteTask 2 initial) = deleteTask 2 initial.
Proof.
  split.
  - apply (proj1 (deleteTask_absent_idempotent 7 initial)). simpl. lia.
  - apply (proj2 (deleteTask_absent_idempotent 2 initial)).
Defined.

(** C10. After [deleteTask i] no task of the collection has identifier [i],
    whatever the state was (several tasks with that identifier all go); the
    tasks kept are exactly those with another identifier; the draft is the
    one before. *)
Theorem deleteTask_removes_all (i : Z) (st : State) :
  ~ In i (ids (deleteTask i st))
  /\ (forall task, In task (tasks (deleteTask i st))
                   <-> In task (tasks st) /\ id task <> i)
  /\ inputValue (deleteTask i st) = inputValue st.
Proof.
  split; [|split; [|reflexivity]].
  - unfold ids. rewrite deleteTask_tasks, in_map_iff.
    intros (t & Ht & Hin). apply filter_In in Hin.
    destruct Hin as [_ Hk]. apply keeps_true in Hk. contradiction.
  - intros t. rewrite deleteTask_tasks, filter_In, keeps_true. tauto.
Qed.

Example deleteTask_duplicates :
  tasks (deleteTask 5 {| tasks := [ mkTask 5 js:"a"; mkTask 6 js:"b";
                                    mkTask 5 js:"c" ];
                         inputValue := js:"d" |})
  = [ mkTask 6 js:"b" ].
Proof. reflexivity. Qed.

(** C9. The seeded state has the three tasks Learn React, Build a todo app,
    Master JavaScript, in this order; deleting the first one by its
    identifier leaves two tasks, Build a todo app and Master JavaScript. *)
Theorem delete_first_seeded :
  texts initial
  = [ js:"Learn React"; js:"Build a todo app"; js:"Master JavaScript" ]
  /\ List.length (tasks initial) = 3%nat
  /\ exists first rest,
       tasks initial = first :: rest
       /\ List.length (tasks (deleteTask (id first) initial)) = 2%nat
       /\ texts (deleteTask (id first) initial)
          = [ js:"Build a todo app"; js:"Master JavaScript" ].
Proof.
  repeat split. eexists _, _. repeat split.
Qed.

(** ** Identifiers along a run *)

Lemma ids_deleteTask (i : Z) (st : State) :
  ids (deleteTask i st) = filter (fun j => negb (Z.eqb j i)) (ids st).
Proof.
  unfold ids. rewrite deleteTask_tasks.
  induction (tasks st) as [|a ts IH]; simpl; [reflexivity|].
  unfold keeps at 1. destruct (negb (id a =? i)); simpl; rewrite IH; reflexivity.
Qed.

Lemma ids_addTask (now : Z) (st : State) :
  ids (addTask now st) = ids st \/ ids (addTask now st) = ids st ++ [now].
Proof.
  unfold addTask.
  destruct (JsString.eqb _ _); [left; reflexivity|right].
  unfold ids; simpl. rewrite map_app. reflexivity.
Qed.

(** What a step does to the list of identifiers: it keeps it, filters one
    identifier out of it, or puts the clock reading at its end. *)
Lemma ids_step (now : Z) (g : Gesture) (st : State) :
  ids (step now g st) = ids st
  \/ (exists i, ids (step now g st) = filter (fun j => negb (Z.eqb j i)) (ids st))
  \/ ids (step now g st) = ids st ++ [now].
Proof.
  destruct g as [v| |key|i]; simpl.
  - left; reflexivity.
  - destruct (ids_addTask now st); auto.
  - unfold handleKeyPress. destruct (JsString.eqb _ _); [|left; reflexivity].
    destruct (ids_addTask now st); auto.
  - right; left. exists i. apply ids_deleteTask.
Qed.

(** With a clock that gives a new, later reading to every gesture, the
    identifiers stay pairwise distinct. *)
Lemma run_distinct_fresh (tr : list (Z * Gesture)) :
  forall (lo : Z) (st : State),
    NoDup (ids st) -> Forall (fun i => i <= lo) (ids st) ->
    clock_fresh lo tr = true ->
    NoDup (ids (run tr st)).
Proof.
  induction tr as [|[now g] tr IH]; simpl; intros lo st Hnd Hlo Hc;
    [exact Hnd|].
  apply andb_true_iff in Hc. destruct Hc as [Hlt Hc]. apply Z.ltb_lt in Hlt.
  assert (Hlo' : Forall (fun i => i <= now) (ids st))
    by (eapply Forall_impl; [|exact Hlo]; simpl; intros; lia).
  apply (IH now); [| |exact Hc];
    destruct (ids_step now g st) as [E|[[i E]|E]]; rewrite E.
  - exact Hnd.
  - apply NoDup_filter, Hnd.
  - apply NoDup_app; [exact Hnd|repeat constructor; simpl; tauto|].
    intros j Hj [<-|[]]. rewrite Forall_forall in Hlo.
    specialize (Hlo _ Hj). lia.
  - exact Hlo'.
  - rewrite Forall_forall in *. intros j Hj. apply filter_In in Hj.
    apply Hlo', Hj.
  - apply Forall_app. split; [exact Hlo'|]. repeat constructor. lia.
Qed.

(** C4 fails on the code: the identifier of a new task is the reading of
    the millisecond clock, and two tasks added within one millisecond get
    the same one.  After the run [same_tick], whose clock never goes back,
    the component is in a state with the identifiers
    1, 2, 3, 1700000000000, 1700000000000. *)
Theorem same_tick_shares_identifier :
  let st := run same_tick initial in
  reachable st
  /\ clock_monotone same_tick = true
  /\ ids st = [1; 2; 3; 1700000000000; 1700000000000]
  /\ texts st = [ js:"Learn React"; js:"Build a todo app";
                  js:"Master JavaScript"; js:"a"; js:"b" ]
  /\ ~ NoDup (ids st).
Proof.
  cbv zeta. split; [apply reachable_run, reach_initial|].
  split; [reflexivity|]. split; [reflexivity|]. split; [reflexivity|].
  change (ids (run same_tick initial))
    with [1; 2; 3; 1700000000000; 1700000000000].
  intros H.
  do 3 (apply NoDup_cons_iff in H; destruct H as [_ H]).
  apply NoDup_cons_iff in H. destruct H as [H _].
  apply H. left. reflexivity.
Qed.

(** X4. Along a run from the seeded state in which every gesture sees a
    clock reading later than the one before, the first later than 3, the
    identifiers of the collection are pairwise distinct. *)
Corollary run_initial_distinct (tr : list (Z * Gesture)) :
  clock_fresh 3 tr = true -> NoDup (ids (run tr initial)).
Proof.
  apply run_distinct_fresh.
  - repeat constructor; simpl; intuition lia.
  - unfold ids; simpl. repeat (constructor; [lia|]). constructor.
Qed.

(** ** The view *)

(** The rows carry the classes task-item, task-text and delete-btn, one of
    each per task, and no other class. *)
Lemma count_class_rows (c : string) (ts : list Task) :
  list_sum (map (count_class c) (map renderTask ts))
  = (List.length ts
     * ((if String.eqb c "task-item" then 1 else 0)
        + (if String.eqb c "task-text" then 1 else 0)
        + (if String.eqb c "delete-btn" then 1 else 0)))%nat.
Proof.
  induction ts as [|a ts IH]; [reflexivity|].
  change (map renderTask (a :: ts)) with (renderTask a :: map renderTask ts).
  change (map (count_class c) (renderTask a :: map renderTask ts))
    with (count_class c (renderTask a)
          :: map (count_class c) (map renderTask ts)).
  change (list_sum (?x :: ?l)) with (x + list_sum l)%nat.
  rewrite IH. unfold renderTask.
  cbn [count_class has_class map list_sum fold_right List.length Nat.mul].
  lia.
Qed.

Lemma count_empty_message (st : State) :
  count_class "empty-message" (render st) = if isEmpty st then 1%nat else 0%nat.
Proof.
  unfold render, isEmpty.
  destruct (Z.of_nat (List.length (tasks st)) =? 0).
  - reflexivity.
  - cbn [count_class has_class map list_sum].
    rewrite count_class_rows. cbn. lia.
Qed.

Lemma count_task_list (st : State) :
  count_class "task-list" (render st) = if isEmpty st then 0%nat else 1%nat.
Proof.
  unfold render, isEmpty.
  destruct (Z.of_nat (List.length (tasks st)) =? 0).
  - reflexivity.
  - cbn [count_class has_class map list_sum].
    rewrite count_class_rows. cbn. lia.
Qed.

Lemma isEmpty_count (st : State) : isEmpty st = true <-> count st = 0%nat.
Proof.
  unfold isEmpty, count. rewrite Z.eqb_eq. lia.
Qed.

(** One row per task. *)
Lemma count_task_item (st : State) :
  count_class "task-item" (render st) = count st.
Proof.
  unfold render, count.
  destruct (Z.of_nat (List.length (tasks st)) =? 0) eqn:E.
  - apply Z.eqb_eq in E. cbn. lia.
  - cbn [count_class has_class map list_sum].
    rewrite count_class_rows. cbn. lia.
Qed.

(** C5. The view has the empty-state message exactly when the collection
    has no task, and the list of rows exactly when it has one or more; in
    every state it has one of the two and not the other; [isEmpty] holds
    exactly when the count is 0. *)
Theorem view_empty_or_rows (st : State) :
  (shown "empty-message" (render st) = true <-> count st = 0%nat)
  /\ (shown "task-list" (render st) = true <-> (0 < count st)%nat)
  /\ xorb (shown "empty-message" (render st))
          (shown "task-list" (render st)) = true
  /\ (count_class "empty-message" (render st)
      + count_class "task-list" (render st) = 1)%nat
  /\ (isEmpty st = true <-> count st = 0%nat).
Proof.
  unfold shown. rewrite count_empty_message, count_task_list.
  pose proof (isEmpty_count st) as H.
  destruct (isEmpty st); simpl; repeat split; try reflexivity;
    try discriminate; try lia; try tauto.
Qed.

Example view_initial :
  shown "task-list" (render initial) = true
  /\ shown "empty-message" (render initial) = false
  /\ count_class "task-item" (render initial) = 3%nat.
Proof. repeat split. Qed.

Example view_after_deleting_all :
  let st := run [ (0, ClickDelete 1); (0, ClickDelete 2); (0, ClickDelete 3) ]
              initial in
  shown "task-list" (render st) = false
  /\ shown "empty-message" (render st) = true
  /\ render (run [ (5, Change js:"x"); (5, ClickAdd) ] st)
     = render {| tasks := [ mkTask 5 js:"x" ]; inputValue := JsString.empty |}.
Proof. repeat split. Qed.

(** ** More on the handlers *)

(** X1. Submitting again without typing adds nothing: a second [addTask]
    finds the draft cleared by the first (or as blank as the first found
    it), whatever the clock reads. *)
Theorem addTask_twice (now1 now2 : Z) (st : State) :
  addTask now2 (addTask now1 st) = addTask now1 st.
Proof.
  unfold addTask.
  destruct (JsString.eqb (JsString.trim (inputValue st)) JsString.empty) eqn:E.
  - rewrite E. reflexivity.
  - reflexivity.
Qed.

Lemma addTask_not_blank (now : Z) (st : State) :
  Forall not_blank (tasks st) -> Forall not_blank (tasks (addTask now st)).
Proof.
  intros H. unfold addTask.
  destruct (JsString.eqb (JsString.trim (inputValue st)) JsString.empty) eqn:E;
    [exact H|].
  simpl. apply Forall_app. split; [exact H|].
  constructor; [|constructor]. unfold not_blank; simpl.
  apply JsStringFacts.eqb_neq in E. rewrite JsStringFacts.trim_empty in E.
  destruct (JsString.blank (inputValue st)); congruence.
Qed.

Lemma step_not_blank (now : Z) (g : Gesture) (st : State) :
  Forall not_blank (tasks st) -> Forall not_blank (tasks (step now g st)).
Proof.
  intros H. destruct g as [v| |key|i]; cbn [step].
  - exact H.
  - apply addTask_not_blank, H.
  - unfold handleKeyPress. destruct (JsString.eqb key _);
      [apply addTask_not_blank|]; exact H.
  - rewrite deleteTask_tasks. rewrite Forall_forall in H |- *.
    intros t Ht. apply filter_In in Ht. apply H, Ht.
Qed.

(** X2. No task of a state the component can reach has a blank text: each
    one holds a character that is not white space. *)
Theorem reachable_texts_not_blank (st : State) (Hreach : reachable st) :
  Forall (fun task => JsString.blank (text task) = false) (tasks st)
  /\ forall task, In task (tasks st) ->
       exists c, In c (text task) /\ JsString.is_white_space c = false.
Proof.
  assert (H : Forall not_blank (tasks st)).
  { induction Hreach as [|now g st _ IH].
    - repeat constructor.
    - apply step_not_blank, IH. }
  split; [exact H|].
  intros t Ht. rewrite Forall_forall in H. specialize (H t Ht).
  unfold not_blank, JsString.blank in H.
  induction (text t) as [|c s IH]; simpl in H; [discriminate|].
  destruct (JsString.is_white_space c) eqn:E.
  - destruct (IH H) as (c' & Hc & Hw). exists c'. simpl; auto.
  - exists c. simpl; auto.
Qed.

Lemma reachable_texts_not_blank_witness :
  let st := run [ (10, Change js:" x "); (11, ClickAdd);
                  (12, Change js:"  "); (13, KeyPress js:"Enter") ] initial in
  Forall (fun task => JsString.blank (text task) = false) (tasks st)
  /\ forall task, In task (tasks st) ->
       exists c, In c (text task) /\ JsString.is_white_space c = false.
Proof.
  apply reachable_texts_not_blank.
  apply reachable_run, reach_initial.
Defined.

(** X3. A step keeps the identifiers pairwise distinct when the clock
    reading it sees is not an identifier of the collection. *)
Theorem step_keeps_distinct (now : Z) (g : Gesture) (st : State)
    (Hdistinct : NoDup (ids st)) (Hfresh : ~ In now (ids st)) :
  NoDup (ids (step now g st)).
Proof.
  destruct (ids_step now g st) as [E|[[i E]|E]]; rewrite E.
  - exact Hdistinct.
  - apply NoDup_filter, Hdistinct.
  - apply NoDup_app; [exact Hdistinct|repeat constructor; simpl; tauto|].
    intros j Hj [<-|[]]. contradiction.
Qed.

Lemma step_keeps_distinct_witness :
  NoDup (ids (step 1700000000000 ClickAdd
                {| tasks := tasks initial; inputValue := js:"Test task" |})).
Proof.
  apply step_keeps_distinct.
  - repeat constructor; simpl; intuition lia.
  - simpl. intuition lia.
Defined.

Lemma run_initial_distinct_witness :
  NoDup (ids (run [ (1700000000000, Change js:"a"); (1700000000001, ClickAdd);
                    (1700000000002, Change js:"b");
                    (1700000000003, KeyPress js:"Enter");
                    (1700000000004, ClickDelete 2) ] initial)).
Proof.
  apply run_initial_distinct. reflexivity.
Defined.

(** X5. Adding a task and then deleting the identifier it got gives back
    the collection as it was, provided that identifier was not in use. *)
Theorem add_then_delete (now : Z) (st : State)
    (Hdraft : JsString.trim (inputValue st) <> JsString.empty)
    (Hfresh : ~ In now (ids st)) :
  tasks (deleteTask now (addTask now st)) = tasks st.
Proof.
  destruct st as [ts s]. simpl in Hdraft.
  rewrite (addTask_accepts now ts s Hdraft), deleteTask_tasks. simpl.
  rewrite filter_app, filter_keeps_absent by exact Hfresh. simpl.
  unfold keeps; simpl. rewrite Z.eqb_refl. simpl. apply app_nil_r.
Qed.

Lemma add_then_delete_witness :
  tasks (deleteTask 1700000000000
           (addTask 1700000000000
              {| tasks := tasks initial; inputValue := js:"Rapid task" |}))
  = tasks initial.
Proof.
  apply (add_then_delete 1700000000000
           {| tasks := tasks initial; inputValue := js:"Rapid task" |}).
  - vm_compute. discriminate.
  - simpl. intuition lia.
Defined.

(** X6. Whatever the gesture, the tasks after it are tasks that were there,
    in the order they had, followed by nothing or by one new task made of
    the clock reading and the draft: no task is changed or moved. *)
Theorem step_keeps_order (now : Z) (g : Gesture) (st : State) :
  exists (kept : Task -> bool) (added : list Task),
    tasks (step now g st) = filter kept (tasks st) ++ added
    /\ (added = [] \/ added = [ {| id := now; text := inputValue st |} ]).
Proof.
  assert (Hsame : forall ts : list Task, ts = filter (fun _ => true) ts ++ []).
  { intros ts. rewrite app_nil_r. induction ts; simpl; congruence. }
  assert (Hadd : exists added,
             tasks (addTask now st) = filter (fun _ => true) (tasks st) ++ added
             /\ (added = [] \/ added = [ {| id := now; text := inputValue st |} ])).
  { unfold addTask. destruct (JsString.eqb _ _).
    - exists []. split; [apply Hsame|auto].
    - eexists. split; [|right; reflexivity]. simpl. f_equal.
      rewrite (Hsame (tasks st)) at 1. apply app_nil_r. }
  destruct g as [v| |key|i]; cbn [step].
  - exists (fun _ => true), []. split; [apply Hsame|auto].
  - exists (fun _ => true). exact Hadd.
  - unfold handleKeyPress. destruct (JsString.eqb key _).
    + exists (fun _ => true). exact Hadd.
    + exists (fun _ => true), []. split; [apply Hsame|auto].
  - exists (keeps i), []. rewrite deleteTask_tasks, app_nil_r. auto.
Qed.

(** ** The page object on the rendered tree *)

Module TodoPageFacts.
Import TodoPage.


Lemma rows_delete_btn (ts : list Task) :
  flat_map (Playwright.resolve (Playwright.ByClass "delete-btn")) (map renderTask ts)
  = map delete_button ts.
Proof.
  induction ts as [|a ts IH]; [reflexivity|].
  cbn [map flat_map]. rewrite IH. reflexivity.
Qed.


(** A selector that matches no part of a row matches nothing in the rows. *)
Lemma rows_none (sel : Playwright.Selector) (ts : list Task) :
  (forall task, Playwright.resolve sel (renderTask task) = []) ->
  flat_map (Playwright.resolve sel) (map renderTask ts) = [].
Proof.
  intros H. induction ts as [|a ts IH]; [reflexivity|].
  cbn [map flat_map]. rewrite IH, H. reflexivity.
Qed.

(** The shape of the tree around the rows. *)
Lemma resolve_render (sel : Playwright.Selector) (st : State) :
  Playwright.resolve sel (render st)
  = (if Playwright.matches sel (render st) then [render st] else [])
    ++ flat_map (Playwright.resolve sel)
         [ Elem "h1" None [] [Text js:"My Todo List"];
           Elem "div" (Some "input-section") []
             [ Elem "input" (Some "task-input")
                 [ PType "text"; PValue (inputValue st); POnChange HChange;
                   POnKeyPress HKeyPress; PPlaceholder "Add a new task..." ]
                 [];
               Elem "button" (Some "add-btn") [POnClick HAddTask]
                 [Text js:"Add Task"] ] ]
    ++ match tasks st with
       | [] => Playwright.resolve sel
                 (Elem "div" (Some "tasks-section") []
                    [ Elem "p" (Some "empty-message") []
                        [Text js:"No tasks yet. Add one to get started!"] ])
       | _ :: _ =>
           (if Playwright.matches sel (Elem "div" (Some "tasks-section") [] []) then
              [ Elem "div" (Some "tasks-section") []
                  [ Elem "ul" (Some "task-list") []
                      (map renderTask (tasks st)) ] ]
            else [])
           ++ (if Playwright.matches sel (Elem "ul" (Some "task-list") [] []) then
                 [ Elem "ul" (Some "task-list") [] (map renderTask (tasks st)) ]
               else [])
           ++ flat_map (Playwright.resolve sel) (map renderTask (tasks st))
       end
    ++ Playwright.resolve sel
         (Elem "div" (Some "stats") []
            [ Elem "p" None []
                [ Text js:"Total tasks: ";
                  Num (Z.of_nat (List.length (tasks st))) ] ]).
Proof.
  unfold render. destruct (tasks st) as [|a ts].
  - cbn -[JsString.lit]. rewrite ?app_nil_r, <- ?app_assoc. reflexivity.
  - set (rows := map renderTask (a :: ts)).
    cbn -[JsString.lit rows]. rewrite ?app_nil_r, <- ?app_assoc. reflexivity.
Qed.


Lemma resolve_deleteButton (st : State) :
  Playwright.resolve (Playwright.selector deleteButton) (render st)
  = map delete_button (tasks st).
Proof.
  rewrite resolve_render. destruct (tasks st) as [|a ts]; [reflexivity|].
  cbn [Playwright.selector deleteButton Playwright.locator Playwright.css].
  rewrite rows_delete_btn. simpl. rewrite ?app_nil_r. reflexivity.
Qed.


Lemma resolve_stats (st : State) :
  Playwright.resolve (Playwright.selector stats) (render st)
  = [ Elem "div" (Some "stats") []
        [ Elem "p" None []
            [ Text js:"Total tasks: ";
              Num (Z.of_nat (List.length (tasks st))) ] ] ].
Proof.
  rewrite resolve_render. destruct (tasks st) as [|a ts]; [reflexivity|].
  cbn [Playwright.selector stats Playwright.locator Playwright.css].
  rewrite rows_none by reflexivity. simpl. rewrite ?app_nil_r. reflexivity.
Qed.

Lemma resolve_emptyMessage (st : State) :
  Playwright.resolve (Playwright.selector emptyMessage) (render st)
  = if isEmpty st
    then [ Elem "p" (Some "empty-message") []
             [Text js:"No tasks yet. Add one to get started!"] ]
    else [].
Proof.
  rewrite resolve_render. unfold isEmpty.
  destruct (tasks st) as [|a ts]; [reflexivity|].
  cbn [Playwright.selector emptyMessage Playwright.locator Playwright.css].
  rewrite rows_none by reflexivity. simpl. rewrite ?app_nil_r. reflexivity.
Qed.

Lemma resolve_taskInput (st : State) :
  Playwright.resolve (Playwright.selector taskInput) (render st)
  = [ Elem "input" (Some "task-input")
        [ PType "text"; PValue (inputValue st); POnChange HChange;
          POnKeyPress HKeyPress; PPlaceholder "Add a new task..." ] [] ].
Proof.
  rewrite resolve_render. destruct (tasks st) as [|a ts]; [reflexivity|].
  cbn [Playwright.selector taskInput Playwright.locator Playwright.css].
  rewrite rows_none by reflexivity. simpl. rewrite ?app_nil_r. reflexivity.
Qed.

Lemma resolve_addButton (st : State) :
  Playwright.resolve (Playwright.selector addButton) (render st)
  = [ Elem "button" (Some "add-btn") [POnClick HAddTask]
        [Text js:"Add Task"] ].
Proof.
  rewrite resolve_render. destruct (tasks st) as [|a ts]; [reflexivity|].
  cbn [Playwright.selector addButton Playwright.locator Playwright.css].
  rewrite rows_none by reflexivity. simpl. rewrite ?app_nil_r. reflexivity.
Qed.




(** X8. The stats readout is the words Total tasks, a colon, a space and
    the number of tasks in decimal. *)
Theorem getStatsText_is_count (st : State) :
  getStatsText st
  = Playwright.Ok (js:"Total tasks: " ++ decimal (Z.of_nat (count st))).
Proof.
  unfold getStatsText, Playwright.textContent, Playwright.one,
    Playwright.elements.
  change (Playwright.pick stats) with Playwright.All. cbv zeta iota.
  rewrite resolve_stats. unfold Playwright.bind, count.
  cbn [text_content map List.concat]. rewrite !app_nil_r. reflexivity.
Qed.

Example getStatsText_initial :
  getStatsText initial = Playwright.Ok js:"Total tasks: 3"
  /\ getStatsText (deleteTask 1 initial) = Playwright.Ok js:"Total tasks: 2".
Proof. split; reflexivity. Qed.

(** X9. Reading the empty-state message gives its text when the collection
    has no task; with one task or more there is no such element and the
    call runs into the time limit. *)
Theorem getEmptyMessageText_cases (st : State) :
  getEmptyMessageText st
  = match tasks st with
    | [] => Playwright.Ok js:"No tasks yet. Add one to get started!"
    | _ :: _ => Playwright.Err Playwright.Timeout
    end.
Proof.
  unfold getEmptyMessageText, Playwright.textContent, Playwright.one,
    Playwright.elements.
  change (Playwright.pick emptyMessage) with Playwright.All. cbv zeta iota.
  rewrite resolve_emptyMessage. unfold isEmpty.
  destruct (tasks st); reflexivity.
Qed.

Lemma fillTaskInput_onChange (value : jsstring) (now : Z) (st : State) :
  fillTaskInput value now st = Playwright.Ok (onChange value st).
Proof.
  unfold fillTaskInput, Playwright.fill, Playwright.one, Playwright.elements.
  change (Playwright.pick taskInput) with Playwright.All. cbv zeta iota.
  rewrite resolve_taskInput. reflexivity.
Qed.



Lemma clickAddButton_addTask (now : Z) (st : State) :
  clickAddButton now st = Playwright.Ok (addTask now st).
Proof.
  unfold clickAddButton, Playwright.click, Playwright.one, Playwright.elements.
  change (Playwright.pick addButton) with Playwright.All. cbv zeta iota.
  rewrite resolve_addButton. reflexivity.
Qed.


Lemma addTaskByButton_run (taskText : jsstring) (now : Z) (st : State) :
  addTaskByButton taskText now st
  = Playwright.Ok (addTask now (onChange taskText st)).
Proof.
  unfold addTaskByButton. rewrite fillTaskInput_onChange.
  cbn [Playwright.bind]. apply clickAddButton_addTask.
Qed.















Lemma elements_last_deleteButton (st : State) :
  Playwright.elements (Playwright.last deleteButton) (render st)
  = match rev (tasks st) with
    | task :: _ => [delete_button task]
    | [] => []
    end.
Proof.
  unfold Playwright.elements, Playwright.last.
  cbn [Playwright.selector Playwright.pick].
  rewrite resolve_deleteButton, <- map_rev.
  destruct (rev (tasks st)); reflexivity.
Qed.

Lemma click_last_deleteButton (now : Z) (st : State) :
  Playwright.click (Playwright.last deleteButton) now st
  = match rev (tasks st) with
    | task :: _ => Playwright.Ok (deleteTask (id task) st)
    | [] => Playwright.Err Playwright.Timeout
    end.
Proof.
  unfold Playwright.click, Playwright.one.
  rewrite elements_last_deleteButton.
  destruct (rev (tasks st)); reflexivity.
Qed.






(** X18. A task added through the button and deleted again through the
    last delete button leaves the rows as they were before, when the text
    is not blank and the clock reading is not an identifier in use. *)
Theorem add_then_deleteLastTask (taskText : jsstring) (now now' : Z)
    (st : State)
    (Htext : JsString.blank taskText = false)
    (Hfresh : ~ In now (ids st)) :
  Playwright.bind (addTaskByButton taskText now st) (deleteLastTask now')
  = Playwright.Ok {| tasks := tasks st; inputValue := JsString.empty |}.
Proof.
  rewrite addTaskByButton_run. unfold onChange, setInputValue.
  rewrite (addTask_accepts now (tasks st) taskText)
    by (rewrite JsStringFacts.trim_empty; congruence).
  cbn [Playwright.bind]. unfold deleteLastTask.
  rewrite click_last_deleteButton.
  cbn [tasks]. rewrite rev_app_distr. cbn [rev app id].
  f_equal. unfold deleteTask, setTasks. cbn [tasks inputValue]. f_equal.
  change (fun task : Task => keeps now task) with (keeps now).
  rewrite filter_app, filter_keeps_absent by exact Hfresh.
  cbn [filter]. unfold keeps. cbn [id]. rewrite Z.eqb_refl.
  apply app_nil_r.
Qed.

Lemma add_then_deleteLastTask_witness :
  Playwright.bind (addTaskByButton js:"Rapid task" 1700000000000 initial)
    (deleteLastTask 1700000000001)
  = Playwright.Ok {| tasks := tasks initial; inputValue := JsString.empty |}.
Proof.
  apply (add_then_deleteLastTask js:"Rapid task" 1700000000000 1700000000001
           initial).
  - reflexivity.
  - simpl. intuition lia.
Defined.

End TodoPageFacts.
